(** * SWIM failure detector: a shallow embedding of [swim.go]

    The Go methods of [*SWIM] are embedded as functions that take the
    receiver and return the updated receiver, inside a small monad that
    threads the observable world (the chronological list of calls made
    to the collaborators, and the goroutines left behind) and stops at a
    run-time panic. *)

From Stdlib Require Import ZArith List String Ascii Bool Lia DecimalString.
Import ListNotations.

Local Open Scope Z_scope.

(** ** Go run-time conversions used by the source *)

Module Go.

(** A Go [int] on the 64-bit targets: two's complement wrap-around. *)
Definition wrap64 (z : Z) : Z := (z + 2 ^ 63) mod 2 ^ 64 - 2 ^ 63.

Definition byte (z : Z) : ascii := ascii_of_N (Z.to_N (z mod 256)).

Definition runeError : Z := 0xFFFD.
Definition maxRune : Z := 0x10FFFF.
Definition surrogateMin : Z := 0xD800.
Definition surrogateMax : Z := 0xDFFF.

Definition bytes (l : list Z) : string :=
  fold_right (fun z s => String (byte z) s) EmptyString l.

(** [utf8.EncodeRune] on a rune already known to be a scalar value. *)
Definition encoderune (r : Z) : string :=
  if r <=? 0x7F then bytes [r]
  else if r <=? 0x7FF then
    bytes [Z.lor 0xC0 (Z.shiftr r 6); Z.lor 0x80 (Z.land r 0x3F)]
  else if r <=? 0xFFFF then
    bytes [Z.lor 0xE0 (Z.shiftr r 12);
           Z.lor 0x80 (Z.land (Z.shiftr r 6) 0x3F);
           Z.lor 0x80 (Z.land r 0x3F)]
  else
    bytes [Z.lor 0xF0 (Z.shiftr r 18);
           Z.lor 0x80 (Z.land (Z.shiftr r 12) 0x3F);
           Z.lor 0x80 (Z.land (Z.shiftr r 6) 0x3F);
           Z.lor 0x80 (Z.land r 0x3F)].

(** The conversion [string(i)] of an integer [i]: the UTF-8 encoding
    of the code point [i], and of U+FFFD when [i] is not a valid one. *)
Definition string_of_int (v : Z) : string :=
  let valid :=
    (0 <=? v) && (v <=? maxRune)
    && negb ((surrogateMin <=? v) && (v <=? surrogateMax)) in
  encoderune (if valid then v else runeError).

(** [strconv.Itoa]: the decimal text of an integer. *)
Definition Itoa (v : Z) : string := NilZero.string_of_int (Z.to_int v).

End Go.

(** ** World, results and the monad *)

Definition error := string.

Inductive MemberStatus := Alive | Suspect | Dead.

(** Modelled from the spec: the declaration of [Member] is not in
    [swim.go]; a member has an address, a status and an incarnation. *)
Record Member := {
  Address : string;
  Status : MemberStatus;
  Incarnation : Z
}.

Definition MemberStatus_eqb (a b : MemberStatus) : bool :=
  match a, b with
  | Alive, Alive | Suspect, Suspect | Dead, Dead => true
  | _, _ => false
  end.

Module pb.

Inductive PiggyBack_Type :=
| PiggyBack_Alive
| PiggyBack_Confirm
| PiggyBack_Suspect
| PiggyBack_other (n : Z).

(** Modelled from the spec: the generated message types are not in
    [swim.go]; a record has a type, a subject and an incarnation. *)
Record PiggyBack := {
  Type_ : PiggyBack_Type;
  Member_ : string;
  Incarnation_ : Z
}.

Inductive isMessage_Payload :=
| Message_Ping
| Message_Ack (Payload : string)
| Message_IndirectPing.

(** [Payload] is an interface value and the field [PiggyBack] (here
    [PiggyBack_]) a pointer: both can be nil, which is [None] here. *)
Record Message := {
  Id : string;
  Address : string;
  Payload : option isMessage_Payload;
  PiggyBack_ : option PiggyBack
}.

End pb.

(** What the engine does to its collaborators, in the order it does it. *)
Inductive Event :=
| EvNewPacketTransport (BindAddress : string) (BindPort : Z)
| EvNewMessageEndpoint
| EvGetMembers
| EvReset
| EvNewTimer (d : Z)
| EvMarkSuspect (m : Member)
| EvGet
| EvPush (p : pb.PiggyBack)
| EvLogError (e : error)
| EvSend (addr : string) (msg : pb.Message).

(** [orphans] counts the goroutines of [probe] that are still asleep
    although [probe] has returned and closed their channel. *)
Record World := {
  trace : list Event;
  orphans : nat
}.

Definition genesis : World := {| trace := []; orphans := 0 |}.

Inductive Result (A : Type) :=
| Ok (a : A)
| Panic (reason : string).
Arguments Ok {A} a.
Arguments Panic {A} reason.

Definition M (A : Type) : Type := World -> Result A * World.

Definition ret {A} (a : A) : M A := fun w => (Ok a, w).

Definition bind {A B} (m : M A) (k : A -> M B) : M B :=
  fun w =>
    match m w with
    | (Ok a, w') => k a w'
    | (Panic r, w') => (Panic r, w')
    end.

Definition panic {A} (reason : string) : M A := fun w => (Panic reason, w).

Definition emit (e : Event) : M unit :=
  fun w => (Ok tt, {| trace := trace w ++ [e]; orphans := orphans w |}).

Definition orphan : M unit :=
  fun w => (Ok tt, {| trace := trace w; orphans := S (orphans w) |}).

Declare Scope go_scope.
Delimit Scope go_scope with go.
Notation "x <- m ;; k" := (bind m (fun x => k))
  (at level 61, m at next level, right associativity) : go_scope.
Notation "m ;; k" := (bind m (fun _ => k))
  (at level 61, right associativity) : go_scope.
Local Open Scope go_scope.

(** [for _, x := range xs { body }] with a body that only has effects. *)
Fixpoint range {A} (xs : list A) (body : A -> M unit) : M unit :=
  match xs with
  | [] => ret tt
  | x :: rest => body x ;; range rest body
  end.

Definition nil_dereference : string :=
  "invalid memory address or nil pointer dereference".

(** Dereferencing a pointer. *)
Definition deref {A} (p : option A) : M A :=
  match p with
  | Some a => ret a
  | None => panic nil_dereference
  end.

(** The world after some more events. *)
Definition said (w : World) (es : list Event) : World :=
  {| trace := trace w ++ es; orphans := orphans w |}.

(** ** Configuration and collaborators *)

Record Config := {
  MaxlocalCount : Z;
  T : Z;
  AckTimeOut : Z;
  K : Z;
  BindAddress : string;
  BindPort : Z
}.

Record PacketTransportConfig := {
  ptc_BindAddress : string;
  ptc_BindPort : Z
}.

(** The member map, the two piggyback stores, the transport and the
    message endpoint are declared in other files of the package. The
    engine is embedded over any implementation of them; a constructor
    returns its pointer (nil is [None]) and its error (nil is [None]). *)
Class Collaborators := {
  MemberMap : Type;
  NewMemberMap : MemberMap;
  GetMembers : MemberMap -> list Member;
  Reset : MemberMap -> MemberMap;

  PriorityPBStore : Type;
  NewPriorityPBStore : Z -> PriorityPBStore;
  Get : PriorityPBStore -> pb.PiggyBack * option error * PriorityPBStore;

  PBkStore : Type;
  Push : PBkStore -> pb.PiggyBack -> PBkStore;

  Awareness : Type;
  MessageEndpointConfig : Type;
  PacketTransport : Type;
  NewPacketTransport :
    PacketTransportConfig -> option PacketTransport * option error;
  MessageEndpoint : Type;
  NewMessageEndpoint :
    MessageEndpointConfig -> option PacketTransport -> option Awareness ->
    option MessageEndpoint * option error
}.

Section Engine.

Context {C : Collaborators}.

(** [quitFD] is an unbuffered channel: its state is the number of
    senders parked on it. [pbkStore] is an interface value. *)
Record SWIM := {
  config : Config;
  memberMap : MemberMap;
  messageEndpoint : option MessageEndpoint;
  priorityPBStore : PriorityPBStore;
  quitFD : nat;
  pbkStore : option PBkStore
}.

Definition with_messageEndpoint (s : SWIM) (e : option MessageEndpoint) :=
  {| config := config s; memberMap := memberMap s; messageEndpoint := e;
     priorityPBStore := priorityPBStore s; quitFD := quitFD s;
     pbkStore := pbkStore s |}.

Definition with_memberMap (s : SWIM) (m : MemberMap) :=
  {| config := config s; memberMap := m;
     messageEndpoint := messageEndpoint s;
     priorityPBStore := priorityPBStore s; quitFD := quitFD s;
     pbkStore := pbkStore s |}.

Definition with_priorityPBStore (s : SWIM) (p : PriorityPBStore) :=
  {| config := config s; memberMap := memberMap s;
     messageEndpoint := messageEndpoint s;
     priorityPBStore := p; quitFD := quitFD s;
     pbkStore := pbkStore s |}.

Definition with_pbkStore (s : SWIM) (p : option PBkStore) :=
  {| config := config s; memberMap := memberMap s;
     messageEndpoint := messageEndpoint s;
     priorityPBStore := priorityPBStore s; quitFD := quitFD s;
     pbkStore := p |}.

Definition with_quitFD (s : SWIM) (n : nat) :=
  {| config := config s; memberMap := memberMap s;
     messageEndpoint := messageEndpoint s;
     priorityPBStore := priorityPBStore s; quitFD := n;
     pbkStore := pbkStore s |}.

(** ** Construction *)

(** [log.Panic(err)] when [err] is not nil. *)
Definition panic_on {A} (r : A * option error) : M A :=
  match r with
  | (a, None) => ret a
  | (_, Some err) => panic err
  end.

Definition messageEndpointFactory (config : Config)
    (messageEndpointConfig : MessageEndpointConfig)
    (awareness : option Awareness) : M (option MessageEndpoint) :=
  let packetTransportConfig :=
    {| ptc_BindAddress := BindAddress config;
       ptc_BindPort := BindPort config |} in
  emit (EvNewPacketTransport (BindAddress config) (BindPort config)) ;;
  packetTransport <- panic_on (NewPacketTransport packetTransportConfig) ;;
  emit EvNewMessageEndpoint ;;
  messageEndpoint <-
    panic_on (NewMessageEndpoint messageEndpointConfig packetTransport
                awareness) ;;
  ret messageEndpoint.

Definition config_panic : string := "T time must be longer than ack time-out".

Definition New (config : Config)
    (messageEndpointConfig : MessageEndpointConfig)
    (awareness : option Awareness) : M SWIM :=
  if T config <? AckTimeOut config then panic config_panic
  else
    let swim :=
      {| config := config;
         memberMap := NewMemberMap;
         messageEndpoint := None;
         priorityPBStore := NewPriorityPBStore (MaxlocalCount config);
         quitFD := 0%nat;
         pbkStore := None |} in
    messageEndpoint <-
      messageEndpointFactory config messageEndpointConfig awareness ;;
    ret (with_messageEndpoint swim messageEndpoint).

(** ** Facade *)

Definition Start (s : SWIM) : M SWIM := ret s.

(** The returned error is nil: [None]. *)
Definition Join (s : SWIM) (peerAddresses : list string)
  : M (SWIM * option error) := ret (s, None).

Definition Gossip (s : SWIM) (msg : string) : M SWIM := ret s.

(** ** Probing *)

(** Which case of the [select] in [probe] is ready first. *)
Inductive Wake := EndFirst | TimerFirst.

(** The goroutine sleeps one second before it sends on [end]. *)
Definition pingDelay : Z := 1000000000.

(** [time.Millisecond * time.Duration(s.config.T)], in nanoseconds. *)
Definition probePeriod (s : SWIM) : Z := Go.wrap64 (1000000 * T (config s)).

(** The ready case when both clocks are exact; a tie goes to [end]. *)
Definition firstReady (s : SWIM) : Wake :=
  if probePeriod s <? pingDelay then TimerFirst else EndFirst.

(** On [TimerFirst] the deferred [close(end)] runs while the goroutine
    is still asleep: it is left behind with a send to make on a closed
    channel. On [EndFirst] the goroutine has finished. *)
Definition probe (s : SWIM) (member : Member) (wake : Wake) : M unit :=
  if MemberStatus_eqb (Status member) Dead then ret tt
  else
    emit (EvNewTimer (probePeriod s)) ;;
    match wake with
    | EndFirst => ret tt
    | TimerFirst => orphan ;; ret tt
    end.

(** An orphan of [probe] wakes up: [end <- struct{}{}] on a closed
    channel. *)
Definition orphanWakes : M unit :=
  fun w =>
    match orphans w with
    | O => (Ok tt, w)
    | S _ => (Panic "send on closed channel", w)
    end.

(** ** Message handling *)

Definition handlePbk (s : SWIM) (piggyBack : option pb.PiggyBack)
  : M SWIM :=
  let hasChanged := false in
  p <- deref piggyBack ;;
  let hasChanged :=
    match pb.Type_ p with
    | pb.PiggyBack_Alive => hasChanged
    | pb.PiggyBack_Confirm => hasChanged
    | pb.PiggyBack_Suspect => hasChanged
    | pb.PiggyBack_other _ => hasChanged
    end in
  if hasChanged then
    store <- deref (pbkStore s) ;;
    emit (EvPush p) ;;
    ret (with_pbkStore s (Some (Push store p)))
  else ret s.

Definition localAddress (s : SWIM) : string :=
  (BindAddress (config s) ++ ":" ++ Go.string_of_int (BindPort (config s)))%string.

(** [Send] is a method of the endpoint pointer: on a nil endpoint the
    call is taken to be a nil dereference. The error it returns is
    dropped. *)
Definition pingHandler (s : SWIM) (msg : pb.Message) : M SWIM :=
  let Address := localAddress s in
  emit EvGet ;;
  let '(piggyBack, err, store) := Get (priorityPBStore s) in
  match err with
  | Some e => emit (EvLogError e)
  | None => ret tt
  end ;;
  _ <- deref (messageEndpoint s) ;;
  emit (EvSend (pb.Address msg)
          {| pb.Id := pb.Id msg;
             pb.Address := Address;
             pb.Payload := Some (pb.Message_Ack "");
             pb.PiggyBack_ := Some piggyBack |}) ;;
  ret (with_priorityPBStore s store).

(** The message of the [Send] of [pingHandler], and what it logs. *)
Definition ackReply (s : SWIM) (msg : pb.Message) (piggyBack : pb.PiggyBack)
  : pb.Message :=
  {| pb.Id := pb.Id msg;
     pb.Address := localAddress s;
     pb.Payload := Some (pb.Message_Ack "");
     pb.PiggyBack_ := Some piggyBack |}.

Definition errorLog (err : option error) : list Event :=
  match err with
  | Some e => [EvLogError e]
  | None => []
  end.

Definition ackHandler (s : SWIM) (msg : pb.Message) : M SWIM := ret s.

Definition indirectPingHandler (s : SWIM) (msg : pb.Message) : M SWIM :=
  ret s.

Definition handle (s : SWIM) (msg : pb.Message) : M SWIM :=
  s <- handlePbk s (pb.PiggyBack_ msg) ;;
  match pb.Payload msg with
  | Some pb.Message_Ping => pingHandler s msg
  | Some (pb.Message_Ack _) => ret s
  | Some pb.Message_IndirectPing => ret s
  | None => ret s
  end.

End Engine.

(** ** The failure detector and its shutdown *)

Section Detector.

Context {C : Collaborators}.

(** How a pass through the body of a [for] ends. *)
Inductive LoopCtl := Continue | Break.

(** The body of the [for] of the goroutine of [startFailureDetector]:
    it has no [break] and no [return], and it never reads [quitFD]. *)
Definition round (wake : Member -> Wake) (s : SWIM) : M (LoopCtl * SWIM) :=
  emit EvGetMembers ;;
  let members := GetMembers (memberMap s) in
  range members (fun member => probe s member (wake member)) ;;
  emit EvReset ;;
  ret (Continue, with_memberMap s (Reset (memberMap s))).

(** [s.quitFD <- struct{}{}]: the sender parks on the channel. *)
Definition ShutDown (s : SWIM) : SWIM := with_quitFD s (S (quitFD s)).

Inductive Goroutine := Spinning | Left.
Inductive Caller := Blocked | Returned.

(** The two threads of [startFailureDetector]: the goroutine in its
    [for], and the caller at [<-s.quitFD]. *)
Record Detector := {
  fd_swim : SWIM;
  fd_loop : Goroutine;
  fd_caller : Caller
}.

Definition startFailureDetector (s : SWIM) : Detector :=
  {| fd_swim := s; fd_loop := Spinning; fd_caller := Blocked |}.

(** What the scheduler runs next: one pass of the goroutine's [for]
    (with the outcome of each [select] of its probes), a call of
    [ShutDown] from another goroutine, or the receive of the caller. *)
Inductive Tick :=
| TickRound (wake : Member -> Wake)
| TickShutDown
| TickReceive.

Definition tick (t : Tick) (d : Detector) : M Detector :=
  match t with
  | TickRound wake =>
      match fd_loop d with
      | Left => ret d
      | Spinning =>
          r <- round wake (fd_swim d) ;;
          ret {| fd_swim := snd r;
                 fd_loop := match fst r with
                            | Continue => Spinning
                            | Break => Left
                            end;
                 fd_caller := fd_caller d |}
      end
  | TickShutDown =>
      ret {| fd_swim := ShutDown (fd_swim d);
             fd_loop := fd_loop d; fd_caller := fd_caller d |}
  | TickReceive =>
      match fd_caller d, quitFD (fd_swim d) with
      | Blocked, S n =>
          ret {| fd_swim := with_quitFD (fd_swim d) n;
                 fd_loop := fd_loop d; fd_caller := Returned |}
      | _, _ => ret d
      end
  end.

Fixpoint run (schedule : list Tick) (d : Detector) : M Detector :=
  match schedule with
  | [] => ret d
  | t :: rest => d' <- tick t d ;; run rest d'
  end.

Definition isRound (t : Tick) : bool :=
  match t with TickRound _ => true | _ => false end.

Definition rounds (schedule : list Tick) : nat :=
  List.length (filter isRound schedule).

Definition isGetMembers (e : Event) : bool :=
  match e with EvGetMembers => true | _ => false end.

Definition isReset (e : Event) : bool :=
  match e with EvReset => true | _ => false end.

Definition snapshots (w : World) : nat :=
  List.length (filter isGetMembers (trace w)).

Definition resets (w : World) : nat :=
  List.length (filter isReset (trace w)).

End Detector.

(** ** Vocabulary of the properties *)

Section Wording.

Context {C : Collaborators}.

(** The reply of the ping handler goes out with no piggyback record. *)
Definition replies_without_piggyback (s : SWIM) (msg : pb.Message)
    (w : World) : Prop :=
  exists s' sent reply,
    pingHandler s msg w = (Ok s', said w sent)
    /\ In (EvSend (pb.Address msg) reply) sent
    /\ pb.PiggyBack_ reply = None.

(** The local identity in host:port form, the port in decimal. *)
Definition hostPort (s : SWIM) : string :=
  (BindAddress (config s) ++ ":" ++ Go.Itoa (BindPort (config s)))%string.

Definition differs (p : Z) : bool :=
  negb (String.eqb (Go.string_of_int p) (Go.Itoa p)).

(** [f] holds on the [2 ^ bits] integers from [base] on. *)
Fixpoint holds_on (bits : nat) (base : Z) (f : Z -> bool) : bool :=
  match bits with
  | O => f base
  | S k => holds_on k base f && holds_on k (base + 2 ^ Z.of_nat k) f
  end.

(** An action that ends well and neither snapshots nor resets. *)
Definition aside (m : M unit) : Prop :=
  forall w, exists w',
    m w = (Ok tt, w') /\ snapshots w' = snapshots w /\ resets w' = resets w.

End Wording.

(** ** A small implementation of the collaborators *)

Module Reference.

Definition emptyRecord : pb.PiggyBack :=
  {| pb.Type_ := pb.PiggyBack_Alive; pb.Member_ := ""; pb.Incarnation_ := 0 |}.

Definition ErrStoreEmpty : error := "empty store"%string.

(** Modelled from the spec: [PriorityPBStore] is not in [swim.go].
    Each pending record has a remaining-replay counter; [Get] returns
    the first record, decrements its counter and evicts it when the
    counter reaches zero, and fails with the empty-store error when no
    record is pending. [GetMembers] returns the members in order and
    [Reset] keeps them. *)
Definition firstPending (store : list (pb.PiggyBack * Z))
  : pb.PiggyBack * option error * list (pb.PiggyBack * Z) :=
  match store with
  | [] => (emptyRecord, Some ErrStoreEmpty, [])
  | (p, n) :: rest =>
      (p, None, if n <=? 1 then rest else (p, n - 1) :: rest)
  end.

#[export] Instance collaborators : Collaborators := {|
  MemberMap := list Member;
  NewMemberMap := [];
  GetMembers := fun m => m;
  Reset := fun m => m;
  PriorityPBStore := list (pb.PiggyBack * Z);
  NewPriorityPBStore := fun _ => [];
  Get := firstPending;
  PBkStore := list pb.PiggyBack;
  Push := fun store p => p :: store;
  Awareness := unit;
  MessageEndpointConfig := unit;
  PacketTransport := unit;
  NewPacketTransport := fun _ => (Some tt, None);
  MessageEndpoint := unit;
  NewMessageEndpoint := fun _ _ _ => (Some tt, None)
|}.

Definition cfg (t ackTimeOut : Z) : Config :=
  {| MaxlocalCount := 3; T := t; AckTimeOut := ackTimeOut; K := 2;
     BindAddress := "127.0.0.1"; BindPort := 8080 |}.

Definition node (t ackTimeOut : Z) (members : list Member) : SWIM :=
  {| config := cfg t ackTimeOut;
     memberMap := members;
     messageEndpoint := Some tt;
     priorityPBStore := [];
     quitFD := 0%nat;
     pbkStore := None |}.

Definition peer (status : MemberStatus) : Member :=
  {| Address := "10.0.0.2:7946"; Status := status; Incarnation := 1 |}.

Definition ping (piggyBack : option pb.PiggyBack) : pb.Message :=
  {| pb.Id := "42"; pb.Address := "10.0.0.2:7946";
     pb.Payload := Some pb.Message_Ping; pb.PiggyBack_ := piggyBack |}.

Definition endFirst : Member -> Wake := fun _ => EndFirst.

(** One round, then [ShutDown] and its receive, then two rounds. *)
Definition stopAfterOneRound : list Tick :=
  [TickRound endFirst; TickShutDown; TickReceive;
   TickRound endFirst; TickRound endFirst].

End Reference.

(** ** Measures of a run *)

Section Measures.

Context {C : Collaborators}.

Definition packetTransportConfigOf (config : Config) : PacketTransportConfig :=
  {| ptc_BindAddress := BindAddress config;
     ptc_BindPort := BindPort config |}.

(** The first two events of a construction. *)
Definition openTransport (config : Config) : Event :=
  EvNewPacketTransport (BindAddress config) (BindPort config).

Definition isLive (m : Member) : bool :=
  negb (MemberStatus_eqb (Status m) Dead).

Definition timerWins (wake : Member -> Wake) (m : Member) : bool :=
  match wake m with
  | TimerFirst => true
  | EndFirst => false
  end.

(** The timers of the probes of a list of members, and the goroutines
    those probes leave behind. *)
Definition timersOf (s : SWIM) (members : list Member) : list Event :=
  map (fun _ => EvNewTimer (probePeriod s)) (filter isLive members).

Definition orphansOf (wake : Member -> Wake) (members : list Member) : nat :=
  List.length (filter (timerWins wake) (filter isLive members)).

Definition isDetectorEvent (e : Event) : bool :=
  match e with
  | EvGetMembers | EvReset | EvNewTimer _ => true
  | _ => false
  end.

Definition isSend (e : Event) : bool :=
  match e with
  | EvSend _ _ => true
  | _ => false
  end.

Definition sends (w : World) : nat := List.length (filter isSend (trace w)).

Definition isPing (msg : pb.Message) : bool :=
  match pb.Payload msg with
  | Some pb.Message_Ping => true
  | _ => false
  end.

Definition hasPiggyBack (msg : pb.Message) : bool :=
  match pb.PiggyBack_ msg with
  | Some _ => true
  | None => false
  end.

Definition isShutDown (t : Tick) : bool :=
  match t with
  | TickShutDown => true
  | _ => false
  end.

Definition shutdowns (schedule : list Tick) : nat :=
  List.length (filter isShutDown schedule).

(** The signals that the caller of [startFailureDetector] has taken. *)
Definition received (d : Detector) : nat :=
  match fd_caller d with
  | Returned => 1
  | Blocked => 0
  end.

(** The largest period, in milliseconds, that fits a [time.Duration]. *)
Definition maxPeriod : Z := 9223372036854.

Definition isSurrogate (p : Z) : bool :=
  (Go.surrogateMin <=? p) && (p <=? Go.surrogateMax).

(** The code point that a string of one to three bytes encodes; it
    inverts [Go.encoderune] below U+10000. *)
Definition decoderune (s : string) : Z :=
  match s with
  | String a EmptyString => Z.of_N (N_of_ascii a)
  | String a (String b EmptyString) =>
      Z.lor (Z.shiftl (Z.land (Z.of_N (N_of_ascii a)) 0x1F) 6)
        (Z.land (Z.of_N (N_of_ascii b)) 0x3F)
  | String a (String b (String c EmptyString)) =>
      Z.lor
        (Z.lor (Z.shiftl (Z.land (Z.of_N (N_of_ascii a)) 0x0F) 12)
           (Z.shiftl (Z.land (Z.of_N (N_of_ascii b)) 0x3F) 6))
        (Z.land (Z.of_N (N_of_ascii c)) 0x3F)
  | _ => -1
  end.

Definition decodes (p : Z) : bool :=
  isSurrogate p || (decoderune (Go.string_of_int p) =? p).

End Measures.

(** ** Collaborators whose constructors fail *)

Module Scenario.

Import Reference.

Definition addressInUse : error := "bind: address already in use"%string.

(** The reference collaborators, with the given outcomes of the two
    constructors. *)
Definition constructing (transport : option unit * option error)
    (endpoint : option unit * option error) : Collaborators :=
  {| MemberMap := list Member;
     NewMemberMap := [];
     GetMembers := fun m => m;
     Reset := fun m => m;
     PriorityPBStore := list (pb.PiggyBack * Z);
     NewPriorityPBStore := fun _ => [];
     Get := Reference.firstPending;
     PBkStore := list pb.PiggyBack;
     Push := fun store p => p :: store;
     Awareness := unit;
     MessageEndpointConfig := unit;
     PacketTransport := unit;
     NewPacketTransport := fun _ => transport;
     MessageEndpoint := unit;
     NewMessageEndpoint := fun _ _ _ => endpoint |}.

(** The reference node, bound to the given port. *)
Definition nodeAt (port : Z) : SWIM :=
  {| config := {| MaxlocalCount := 3; T := 500; AckTimeOut := 100; K := 2;
                  BindAddress := "127.0.0.1"; BindPort := port |};
     memberMap := [];
     messageEndpoint := Some tt;
     priorityPBStore := [];
     quitFD := 0%nat;
     pbkStore := None |}.

Definition ack : pb.Message :=
  {| pb.Id := "43"; pb.Address := "10.0.0.2:7946";
     pb.Payload := Some (pb.Message_Ack "");
     pb.PiggyBack_ := Some Reference.emptyRecord |}.

Definition threeRounds : list Tick :=
  [TickRound Reference.endFirst; TickReceive; TickRound Reference.endFirst;
   TickReceive; TickRound Reference.endFirst].

End Scenario.

(** * Properties *)

Section Properties.

Context {C : Collaborators}.

(** ** Stepping through the monad *)

Lemma bind_ok {A B} (m : M A) (k : A -> M B) w a w' :
  m w = (Ok a, w') -> bind m k w = k a w'.
Proof. intros H. unfold bind. now rewrite H. Qed.

Lemma bind_panic {A B} (m : M A) (k : A -> M B) w r w' :
  m w = (Panic r, w') -> bind m k w = (Panic r, w').
Proof. intros H. unfold bind. now rewrite H. Qed.

Lemma said_nil w : said w [] = w.
Proof. destruct w. unfold said. cbn. now rewrite app_nil_r. Qed.

Lemma said_said w es fs : said (said w es) fs = said w (es ++ fs).
Proof. unfold said. cbn. now rewrite app_assoc. Qed.

Lemma emit_said e w : emit e w = (Ok tt, said w [e]).
Proof. reflexivity. Qed.

(** ** Construction *)

Lemma New_rejects config mec awareness w :
  T config < AckTimeOut config ->
  New config mec awareness w = (Panic config_panic, w).
Proof.
  intros H. unfold New.
  apply Z.ltb_lt in H. now rewrite H.
Qed.

Lemma New_proceeds config mec awareness w :
  AckTimeOut config <= T config ->
  exists r rest,
    New config mec awareness w
    = (r, said w (EvNewPacketTransport (BindAddress config)
                    (BindPort config) :: rest)).
Proof.
  intros H. unfold New.
  apply Z.ltb_ge in H. rewrite H.
  unfold messageEndpointFactory, bind. rewrite emit_said.
  destruct (NewPacketTransport _) as [transport [err|]]; cbn.
  - eexists; exists []. reflexivity.
  - destruct (NewMessageEndpoint mec transport awareness) as [e [err|]]; cbn.
    + eexists; exists [EvNewMessageEndpoint].
      unfold said; cbn. now rewrite <- app_assoc.
    + eexists; exists [EvNewMessageEndpoint].
      unfold said; cbn. now rewrite <- app_assoc.
Qed.

(** C2. [New] lets a configuration with [T = AckTimeOut] through: it
    does not stop with the configuration panic, it goes on to open the
    packet transport. Only [T < AckTimeOut] is rejected. *)
Theorem New_accepts_equal_timeouts config mec awareness w :
  T config = AckTimeOut config ->
  exists r rest,
    New config mec awareness w
    = (r, said w (EvNewPacketTransport (BindAddress config)
                    (BindPort config) :: rest)).
Proof.
  intros H. apply New_proceeds. lia.
Qed.

(** ** Probing *)

Lemma probe_skips_dead s member wake w :
  Status member = Dead -> probe s member wake w = (Ok tt, w).
Proof. intros H. unfold probe. now rewrite H. Qed.

Lemma probe_live s member wake w :
  Status member <> Dead ->
  probe s member wake w
  = (Ok tt,
     {| trace := trace w ++ [EvNewTimer (probePeriod s)];
        orphans := match wake with
                   | EndFirst => orphans w
                   | TimerFirst => S (orphans w)
                   end |}).
Proof.
  intros H. unfold probe.
  destruct (Status member); try congruence; destruct wake; reflexivity.
Qed.

(** C3. A probe of a member whose status is [Dead] returns at once: no
    call to any collaborator is made and the world is left as it was. *)
Theorem probe_dead_is_silent s member wake w :
  Status member = Dead -> probe s member wake w = (Ok tt, w).
Proof. apply probe_skips_dead. Qed.

(** C1. When the timer of a probe of a live member fires first, [probe]
    returns after having only created the timer: [MarkSuspect] is not
    called, and the sleeping goroutine is left behind. *)
Theorem probe_timer_first_marks_nothing s member w :
  Status member <> Dead ->
  probe s member TimerFirst w
  = (Ok tt,
     {| trace := trace w ++ [EvNewTimer (probePeriod s)];
        orphans := S (orphans w) |}).
Proof. intros H. now rewrite probe_live. Qed.

(** ** Facade *)

(** C9. [Join] returns a nil error for every seed list and contacts
    nobody: the world and the receiver are left as they were. *)
Theorem Join_is_a_stub s peerAddresses w :
  Join s peerAddresses w = (Ok (s, None), w).
Proof. reflexivity. Qed.

(** ** Message handling *)

Lemma handlePbk_nil s w :
  handlePbk s None w = (Panic nil_dereference, w).
Proof. reflexivity. Qed.

Lemma handlePbk_present s p w : handlePbk s (Some p) w = (Ok s, w).
Proof. unfold handlePbk. cbn. now destruct (pb.Type_ p). Qed.

Lemma handle_nil s msg w :
  pb.PiggyBack_ msg = None -> handle s msg w = (Panic nil_dereference, w).
Proof.
  intros H. unfold handle. rewrite H.
  now rewrite (bind_panic _ _ _ _ _ (handlePbk_nil s w)).
Qed.

(** C5. Whatever the type of a piggyback record, [handlePbk] makes no
    call on the member map and pushes nothing: receiver and world are
    left as they were. *)
Theorem handlePbk_applies_nothing s p w :
  handlePbk s (Some p) w = (Ok s, w).
Proof. apply handlePbk_present. Qed.

(** C7. A message whose piggyback pointer is nil makes [handle] panic
    on the dereference in [handlePbk], before the payload is looked at. *)
Theorem handle_nil_piggyback_panics s msg w :
  pb.PiggyBack_ msg = None ->
  handle s msg w = (Panic nil_dereference, w).
Proof. apply handle_nil. Qed.

(** C4. A ping that carries no piggyback record gets no reply: [handle]
    panics before [pingHandler] runs, and nothing is sent. *)
Theorem handle_ping_without_piggyback s id address w :
  handle s {| pb.Id := id; pb.Address := address;
              pb.Payload := Some pb.Message_Ping;
              pb.PiggyBack_ := None |} w
  = (Panic nil_dereference, w).
Proof. now apply handle_nil. Qed.

Lemma pingHandler_replies s msg ep w :
  messageEndpoint s = Some ep ->
  pingHandler s msg w
  = (Ok (with_priorityPBStore s (snd (Get (priorityPBStore s)))),
     said w (EvGet
             :: errorLog (snd (fst (Get (priorityPBStore s))))
             ++ [EvSend (pb.Address msg)
                   (ackReply s msg (fst (fst (Get (priorityPBStore s)))))])).
Proof.
  intros Hep. unfold pingHandler.
  destruct (Get (priorityPBStore s)) as [[p err] store]. cbn [fst snd].
  rewrite (bind_ok _ _ _ _ _ (emit_said EvGet w)).
  rewrite Hep. unfold ackReply.
  destruct err as [e|]; unfold bind, ret; cbn; unfold said; cbn;
    now rewrite <- !app_assoc.
Qed.

(** A ping that does carry a record is answered as the dispatcher is
    meant to: an [Ack] to the sender, with the id of the ping and the
    record that [Get] returned. *)
Lemma handle_ping_with_piggyback s msg ep p w :
  messageEndpoint s = Some ep ->
  pb.Payload msg = Some pb.Message_Ping ->
  pb.PiggyBack_ msg = Some p ->
  handle s msg w
  = (Ok (with_priorityPBStore s (snd (Get (priorityPBStore s)))),
     said w (EvGet
             :: errorLog (snd (fst (Get (priorityPBStore s))))
             ++ [EvSend (pb.Address msg)
                   (ackReply s msg (fst (fst (Get (priorityPBStore s)))))])).
Proof.
  intros Hep Hping Hpb. unfold handle. rewrite Hpb, Hping.
  rewrite (bind_ok _ _ _ _ _ (handlePbk_present s p w)).
  now apply pingHandler_replies with (ep := ep).
Qed.

(** C8 (amended). When [Get] returns an error, the error is logged
    and the [Ack] is still sent; its piggyback pointer is not nil: it
    points to the record that [Get] returned along with the error. *)
Theorem pingHandler_store_error_still_replies s msg ep p e store w :
  messageEndpoint s = Some ep ->
  Get (priorityPBStore s) = (p, Some e, store) ->
  pingHandler s msg w
  = (Ok (with_priorityPBStore s store),
     said w [EvGet; EvLogError e; EvSend (pb.Address msg) (ackReply s msg p)])
  /\ pb.PiggyBack_ (ackReply s msg p) = Some p.
Proof.
  intros Hep Hget. split; [|reflexivity].
  rewrite (pingHandler_replies s msg ep w Hep), Hget. reflexivity.
Qed.

(** ** The sender address of the reply *)

Lemma append_cancel (a x y : string) :
  (a ++ x)%string = (a ++ y)%string -> x = y.
Proof.
  induction a as [|c a IH]; cbn; intros H; [assumption|].
  injection H as H. now apply IH.
Qed.

Lemma holds_on_sound bits :
  forall base f,
    holds_on bits base f = true ->
    forall p, base <= p < base + 2 ^ Z.of_nat bits -> f p = true.
Proof.
  induction bits as [|k IH]; intros base f H p Hp.
  - cbn in H, Hp. assert (p = base) by lia. now subst.
  - cbn [holds_on] in H. apply andb_true_iff in H as [Hlow Hhigh].
    rewrite Nat2Z.inj_succ, Z.pow_succ_r in Hp by lia.
    destruct (Z_lt_le_dec p (base + 2 ^ Z.of_nat k)) as [Hlt|Hge].
    + apply (IH base f Hlow). lia.
    + apply (IH _ f Hhigh). lia.
Qed.

Lemma differs_on_ports : holds_on 16 0 differs = true.
Proof. vm_compute. reflexivity. Qed.

Lemma port_text_differs (p : Z) :
  0 <= p <= 65535 -> Go.string_of_int p <> Go.Itoa p.
Proof.
  intros Hp Heq.
  assert (H : differs p = true).
  { apply (holds_on_sound 16 0 differs differs_on_ports).
    change (2 ^ Z.of_nat 16) with 65536. lia. }
  unfold differs in H. rewrite Heq, String.eqb_refl in H. discriminate.
Qed.

(** C10. The sender address of the [Ack] is the bind address, a colon
    and the UTF-8 encoding of the code point numbered by the port; for
    no port from 0 to 65535 is that the host:port form with the port in
    decimal. *)
Theorem pingHandler_sender_is_not_host_port s msg ep w :
  messageEndpoint s = Some ep ->
  0 <= BindPort (config s) <= 65535 ->
  exists s' sent p,
    pingHandler s msg w = (Ok s', said w sent)
    /\ In (EvSend (pb.Address msg) (ackReply s msg p)) sent
    /\ pb.Address (ackReply s msg p)
       = (BindAddress (config s) ++ ":"
          ++ Go.string_of_int (BindPort (config s)))%string
    /\ pb.Address (ackReply s msg p) <> hostPort s.
Proof.
  intros Hep Hport.
  eexists; eexists; eexists. split; [|split; [|split]].
  - apply (pingHandler_replies s msg ep w Hep).
  - right. apply in_or_app. right. left. reflexivity.
  - reflexivity.
  - cbn. unfold localAddress, hostPort. intros H.
    apply append_cancel in H. apply append_cancel in H.
    now apply (port_text_differs _ Hport).
Qed.

(** ** The round loop *)

Lemma snapshots_said w es :
  snapshots (said w es)
  = (snapshots w + List.length (filter isGetMembers es))%nat.
Proof. unfold snapshots, said. cbn. now rewrite filter_app, length_app. Qed.

Lemma resets_said w es :
  resets (said w es) = (resets w + List.length (filter isReset es))%nat.
Proof. unfold resets, said. cbn. now rewrite filter_app, length_app. Qed.

Lemma probe_aside s member wake : aside (probe s member wake).
Proof.
  intros w. destruct (MemberStatus_eqb (Status member) Dead) eqn:E.
  - exists w. unfold probe. now rewrite E.
  - assert (Hlive : Status member <> Dead).
    { intros Hd. rewrite Hd in E. discriminate. }
    eexists. split; [apply (probe_live s member wake w Hlive)|].
    unfold snapshots, resets; cbn.
    rewrite !filter_app, !length_app. cbn. lia.
Qed.

Lemma range_aside {A} (xs : list A) (body : A -> M unit) :
  (forall x, aside (body x)) -> aside (range xs body).
Proof.
  intros Hbody. induction xs as [|x xs IH]; intros w.
  - exists w. now cbn.
  - destruct (Hbody x w) as (w1 & H1 & Hs1 & Hr1).
    destruct (IH w1) as (w2 & H2 & Hs2 & Hr2).
    exists w2. cbn. rewrite (bind_ok _ _ _ _ _ H1).
    repeat split; [assumption|congruence|congruence].
Qed.

Lemma round_continues wake s w :
  exists w',
    round wake s w
    = (Ok (Continue, with_memberMap s (Reset (memberMap s))), w')
    /\ snapshots w' = S (snapshots w)
    /\ resets w' = S (resets w).
Proof.
  unfold round.
  rewrite (bind_ok _ _ _ _ _ (emit_said EvGetMembers w)).
  destruct (range_aside (GetMembers (memberMap s))
              (fun member => probe s member (wake member))
              (fun member => probe_aside s member (wake member))
              (said w [EvGetMembers])) as (w1 & H1 & Hs1 & Hr1).
  rewrite (bind_ok _ _ _ _ _ H1).
  rewrite (bind_ok _ _ _ _ _ (emit_said EvReset w1)).
  eexists. split; [reflexivity|].
  rewrite snapshots_said, resets_said, Hs1, Hr1.
  rewrite snapshots_said, resets_said. cbn. lia.
Qed.

(** C6. Whatever is scheduled, calls of [ShutDown] and the receive of
    the caller included, the goroutine stays in its [for]: every pass
    takes one snapshot with [GetMembers] and ends with one [Reset], and
    no pass is the last one. *)
Theorem detector_outlives_shutdown schedule d w :
  fd_loop d = Spinning ->
  exists d' w',
    run schedule d w = (Ok d', w')
    /\ fd_loop d' = Spinning
    /\ snapshots w' = (snapshots w + rounds schedule)%nat
    /\ resets w' = (resets w + rounds schedule)%nat.
Proof.
  revert d w. induction schedule as [|t rest IH]; intros d w Hloop.
  - exists d, w. unfold rounds. cbn. repeat split; auto; lia.
  - assert (Hstep : exists d1 w1,
               tick t d w = (Ok d1, w1) /\ fd_loop d1 = Spinning
               /\ snapshots w1
                  = (snapshots w + if isRound t then 1 else 0)%nat
               /\ resets w1 = (resets w + if isRound t then 1 else 0)%nat).
    { destruct t as [wake| |]; cbn.
      - rewrite Hloop.
        destruct (round_continues wake (fd_swim d) w) as (w1 & H1 & Hs & Hr).
        rewrite (bind_ok _ _ _ _ _ H1). cbn.
        eexists; eexists. split; [reflexivity|]. cbn.
        repeat split; lia.
      - eexists; eexists. split; [reflexivity|]. cbn.
        repeat split; auto; lia.
      - destruct (fd_caller d), (quitFD (fd_swim d));
          (eexists; eexists; split; [reflexivity|]; cbn;
           repeat split; auto; lia). }
    destruct Hstep as (d1 & w1 & H1 & Hl1 & Hs1 & Hr1).
    destruct (IH d1 w1 Hl1) as (d2 & w2 & H2 & Hl2 & Hs2 & Hr2).
    exists d2, w2. cbn [run]. rewrite (bind_ok _ _ _ _ _ H1).
    split; [assumption|]. split; [assumption|].
    unfold rounds in *. cbn [filter].
    destruct (isRound t); cbn [List.length]; lia.
Qed.

End Properties.

(** * The properties at concrete inputs *)

Module Concrete.

Import Reference.

(** With [T = 100] and [AckTimeOut = 100] the engine is built and the
    transport is opened. *)
Example New_100_100 :
  New (cfg 100 100) tt None genesis
  = (Ok (node 100 100 []),
     said genesis [EvNewPacketTransport "127.0.0.1" 8080;
                   EvNewMessageEndpoint]).
Proof. reflexivity. Qed.

(** With [T = 50] and [AckTimeOut = 100] nothing is opened. *)
Example New_50_100 :
  New (cfg 50 100) tt None genesis = (Panic config_panic, genesis).
Proof. reflexivity. Qed.

Lemma New_accepts_equal_timeouts_witness :
  T (cfg 100 100) = AckTimeOut (cfg 100 100)
  /\ exists r rest,
       New (cfg 100 100) tt None genesis
       = (r, said genesis (EvNewPacketTransport (BindAddress (cfg 100 100))
                             (BindPort (cfg 100 100)) :: rest)).
Proof.
  split; [reflexivity|].
  apply (New_accepts_equal_timeouts (C := collaborators) (cfg 100 100) tt None
           genesis).
  reflexivity.
Defined.

Lemma probe_dead_is_silent_witness :
  Status (peer Dead) = Dead
  /\ probe (node 500 100 [peer Dead]) (peer Dead) TimerFirst genesis
     = (Ok tt, genesis).
Proof.
  split; [reflexivity|].
  apply (probe_dead_is_silent (node 500 100 [peer Dead]) (peer Dead)
           TimerFirst genesis).
  reflexivity.
Defined.

(** With [T = 500] the timer of a probe is ready before the goroutine
    has slept its second; the goroutine left behind then panics. *)
Example probe_500_timer_first :
  firstReady (node 500 100 [peer Alive]) = TimerFirst
  /\ probe (node 500 100 [peer Alive]) (peer Alive) TimerFirst genesis
     = (Ok tt, {| trace := [EvNewTimer 500000000]; orphans := 1 |})
  /\ orphanWakes {| trace := [EvNewTimer 500000000]; orphans := 1 |}
     = (Panic "send on closed channel",
        {| trace := [EvNewTimer 500000000]; orphans := 1 |}).
Proof. repeat split. Qed.

Lemma probe_timer_first_marks_nothing_witness :
  Status (peer Alive) <> Dead
  /\ probe (node 500 100 [peer Alive]) (peer Alive) TimerFirst genesis
     = (Ok tt,
        {| trace := trace genesis
                    ++ [EvNewTimer (probePeriod (node 500 100 [peer Alive]))];
           orphans := S (orphans genesis) |}).
Proof.
  split; [discriminate|].
  apply (probe_timer_first_marks_nothing (node 500 100 [peer Alive])
           (peer Alive) genesis).
  discriminate.
Defined.

Lemma handle_nil_piggyback_panics_witness :
  pb.PiggyBack_ (ping None) = None
  /\ handle (node 500 100 []) (ping None) genesis
     = (Panic nil_dereference, genesis).
Proof.
  split; [reflexivity|].
  apply (handle_nil_piggyback_panics (node 500 100 []) (ping None) genesis).
  reflexivity.
Defined.

(** A ping that carries a record is answered, here from an empty store. *)
Example handle_ping_with_record :
  handle (node 500 100 []) (ping (Some emptyRecord)) genesis
  = (Ok (node 500 100 []),
     said genesis
       [EvGet; EvLogError ErrStoreEmpty;
        EvSend "10.0.0.2:7946"
          (ackReply (node 500 100 []) (ping (Some emptyRecord))
             emptyRecord)]).
Proof. reflexivity. Qed.

(** C8 (as stated) fails: on an empty store the reply does not go out
    without a piggyback record, the one message sent carries the
    record that [Get] returned with the error. *)
Lemma pingHandler_empty_store_attaches_record :
  snd (fst (Get (priorityPBStore (node 500 100 [])))) = Some ErrStoreEmpty
  /\ ~ replies_without_piggyback (node 500 100 [])
         (ping (Some emptyRecord)) genesis.
Proof.
  split; [reflexivity|].
  intros (s' & sent & reply & Hrun & Hin & Hnone).
  cbv in Hrun. injection Hrun as _ Hsent. subst sent.
  cbn in Hin.
  destruct Hin as [H|[H|[H|[]]]]; try discriminate.
  injection H as H. subst reply. discriminate.
Qed.

Lemma pingHandler_store_error_still_replies_witness :
  messageEndpoint (node 500 100 []) = Some tt
  /\ Get (priorityPBStore (node 500 100 []))
     = (emptyRecord, Some ErrStoreEmpty, [])
  /\ (pingHandler (node 500 100 []) (ping (Some emptyRecord)) genesis
      = (Ok (with_priorityPBStore (node 500 100 []) []),
         said genesis
           [EvGet; EvLogError ErrStoreEmpty;
            EvSend (pb.Address (ping (Some emptyRecord)))
              (ackReply (node 500 100 []) (ping (Some emptyRecord))
                 emptyRecord)])
      /\ pb.PiggyBack_
           (ackReply (node 500 100 []) (ping (Some emptyRecord)) emptyRecord)
         = Some emptyRecord).
Proof.
  split; [reflexivity|]. split; [reflexivity|].
  apply (pingHandler_store_error_still_replies (node 500 100 [])
           (ping (Some emptyRecord)) tt emptyRecord ErrStoreEmpty []
           genesis); reflexivity.
Defined.

(** Port 8080 becomes the three bytes of U+1F90, not the text 8080. *)
Example localAddress_8080 :
  localAddress (node 500 100 [])
  = ("127.0.0.1:" ++ Go.bytes [0xE1; 0xBE; 0x90])%string
  /\ hostPort (node 500 100 []) = "127.0.0.1:8080"%string.
Proof. split; reflexivity. Qed.

Lemma pingHandler_sender_is_not_host_port_witness :
  messageEndpoint (node 500 100 []) = Some tt
  /\ 0 <= BindPort (config (node 500 100 [])) <= 65535
  /\ exists s' sent p,
       pingHandler (node 500 100 []) (ping (Some emptyRecord)) genesis
       = (Ok s', said genesis sent)
       /\ In (EvSend (pb.Address (ping (Some emptyRecord)))
                (ackReply (node 500 100 []) (ping (Some emptyRecord)) p))
            sent
       /\ pb.Address
            (ackReply (node 500 100 []) (ping (Some emptyRecord)) p)
          = (BindAddress (config (node 500 100 [])) ++ ":"
             ++ Go.string_of_int (BindPort (config (node 500 100 []))))%string
       /\ pb.Address
            (ackReply (node 500 100 []) (ping (Some emptyRecord)) p)
          <> hostPort (node 500 100 []).
Proof.
  split; [reflexivity|]. split; [cbn; lia|].
  apply (pingHandler_sender_is_not_host_port (node 500 100 [])
           (ping (Some emptyRecord)) tt genesis); [reflexivity|cbn; lia].
Defined.

(** One round, then [ShutDown] and the receive of the caller, then two
    more rounds: the caller has returned, the goroutine is still in its
    loop and has gone through the two rounds. *)
Example rounds_after_shutdown :
  run stopAfterOneRound
    (startFailureDetector (node 2000 100 [peer Alive])) genesis
  = (Ok {| fd_swim := node 2000 100 [peer Alive];
           fd_loop := Spinning;
           fd_caller := Returned |},
     said genesis
       [EvGetMembers; EvNewTimer 2000000000; EvReset;
        EvGetMembers; EvNewTimer 2000000000; EvReset;
        EvGetMembers; EvNewTimer 2000000000; EvReset]).
Proof. reflexivity. Qed.

Lemma detector_outlives_shutdown_witness :
  fd_loop (startFailureDetector (node 2000 100 [peer Alive])) = Spinning
  /\ exists d' w',
       run stopAfterOneRound
         (startFailureDetector (node 2000 100 [peer Alive])) genesis
       = (Ok d', w')
       /\ fd_loop d' = Spinning
       /\ snapshots w' = (snapshots genesis + rounds stopAfterOneRound)%nat
       /\ resets w' = (resets genesis + rounds stopAfterOneRound)%nat.
Proof.
  split; [reflexivity|].
  apply (detector_outlives_shutdown stopAfterOneRound
           (startFailureDetector (node 2000 100 [peer Alive])) genesis).
  reflexivity.
Defined.

End Concrete.

(** * Further properties *)

Section Further.

Context {C : Collaborators}.

(** ** Construction *)

Lemma New_runs_factory config mec awareness w :
  AckTimeOut config <= T config ->
  New config mec awareness w
  = match NewPacketTransport (packetTransportConfigOf config) with
    | (_, Some err) => (Panic err, said w [openTransport config])
    | (transport, None) =>
        match NewMessageEndpoint mec transport awareness with
        | (_, Some err) =>
            (Panic err, said w [openTransport config; EvNewMessageEndpoint])
        | (endpoint, None) =>
            (Ok {| config := config;
                   memberMap := NewMemberMap;
                   messageEndpoint := endpoint;
                   priorityPBStore := NewPriorityPBStore (MaxlocalCount config);
                   quitFD := 0%nat;
                   pbkStore := None |},
             said w [openTransport config; EvNewMessageEndpoint])
        end
    end.
Proof.
  intros H. unfold New. apply Z.ltb_ge in H. rewrite H.
  unfold messageEndpointFactory, packetTransportConfigOf, openTransport, bind.
  rewrite emit_said.
  destruct (NewPacketTransport _) as [transport [err|]]; cbn; [reflexivity|].
  destruct (NewMessageEndpoint mec transport awareness) as [e [err|]]; cbn;
    unfold said; cbn; now rewrite <- app_assoc.
Qed.

(** X1. When [T] is not below [AckTimeOut] and both constructors return
    no error, [New] returns the engine with the given configuration, a
    new member map, a new priority store sized by [MaxlocalCount], the
    endpoint it was given, and a nil [pbkStore]; the transport was
    opened before the endpoint was made. *)
Theorem New_builds config mec awareness transport endpoint w :
  AckTimeOut config <= T config ->
  NewPacketTransport (packetTransportConfigOf config) = (transport, None) ->
  NewMessageEndpoint mec transport awareness = (endpoint, None) ->
  New config mec awareness w
  = (Ok {| config := config;
           memberMap := NewMemberMap;
           messageEndpoint := endpoint;
           priorityPBStore := NewPriorityPBStore (MaxlocalCount config);
           quitFD := 0%nat;
           pbkStore := None |},
     said w [openTransport config; EvNewMessageEndpoint]).
Proof.
  intros H Ht He. rewrite (New_runs_factory _ _ _ _ H), Ht, He. reflexivity.
Qed.

(** X2. When the packet transport cannot be made, [New] panics with the
    error of the transport and the message endpoint is never made. *)
Theorem New_transport_error config mec awareness transport err w :
  AckTimeOut config <= T config ->
  NewPacketTransport (packetTransportConfigOf config)
  = (transport, Some err) ->
  New config mec awareness w = (Panic err, said w [openTransport config]).
Proof.
  intros H Ht. rewrite (New_runs_factory _ _ _ _ H), Ht. reflexivity.
Qed.

(** X3. When the message endpoint cannot be made, [New] panics with the
    error of the endpoint, after the transport was opened. *)
Theorem New_endpoint_error config mec awareness transport endpoint err w :
  AckTimeOut config <= T config ->
  NewPacketTransport (packetTransportConfigOf config) = (transport, None) ->
  NewMessageEndpoint mec transport awareness = (endpoint, Some err) ->
  New config mec awareness w
  = (Panic err, said w [openTransport config; EvNewMessageEndpoint]).
Proof.
  intros H Ht He. rewrite (New_runs_factory _ _ _ _ H), Ht, He. reflexivity.
Qed.

Lemma said_grows w e es : said w (e :: es) <> w.
Proof.
  intros H. apply (f_equal (fun x => List.length (trace x))) in H.
  unfold said in H. cbn in H. rewrite length_app in H. cbn in H. lia.
Qed.

(** X4. [New] leaves the world untouched exactly when [T] is below
    [AckTimeOut]: a rejected configuration opens nothing, and every
    other one reaches the transport whatever happens next. *)
Theorem New_untouched_iff config mec awareness w :
  snd (New config mec awareness w) = w <-> T config < AckTimeOut config.
Proof.
  split.
  - intros H. destruct (Z_lt_le_dec (T config) (AckTimeOut config)) as [|Hge];
      [assumption|exfalso].
    rewrite (New_runs_factory _ _ _ _ Hge) in H.
    destruct (NewPacketTransport _) as [transport [err|]]; cbn in H.
    + now apply said_grows in H.
    + destruct (NewMessageEndpoint mec transport awareness) as [e [err|]];
        cbn in H; now apply said_grows in H.
  - intros H. now rewrite New_rejects.
Qed.

(** ** Message handling *)

Lemma pingHandler_nil_endpoint s msg w :
  messageEndpoint s = None ->
  exists w', pingHandler s msg w = (Panic nil_dereference, w').
Proof.
  intros Hep. unfold pingHandler.
  destruct (Get (priorityPBStore s)) as [[p err] store].
  rewrite Hep. destruct err; unfold bind; cbn; eexists; reflexivity.
Qed.

Lemma sends_said w es :
  sends (said w es) = (sends w + List.length (filter isSend es))%nat.
Proof. unfold sends, said. cbn. now rewrite filter_app, length_app. Qed.

Lemma errorLog_sends_nothing err : filter isSend (errorLog err) = [].
Proof. now destruct err. Qed.

Lemma handle_not_ping s msg p w :
  pb.PiggyBack_ msg = Some p ->
  isPing msg = false ->
  handle s msg w = (Ok s, w).
Proof.
  intros Hpb Hping. unfold handle. rewrite Hpb.
  rewrite (bind_ok _ _ _ _ _ (handlePbk_present s p w)).
  unfold isPing in Hping.
  destruct (pb.Payload msg) as [[| |]|]; try reflexivity; discriminate.
Qed.

(** X5. A message that carries a record and whose payload is not a ping
    (an ack, an indirect ping, or no payload) is dropped: [handle]
    returns the receiver as it was and calls nobody. *)
Theorem handle_drops_other_payloads s msg p w :
  pb.PiggyBack_ msg = Some p ->
  isPing msg = false ->
  handle s msg w = (Ok s, w).
Proof. apply handle_not_ping. Qed.

(** X6. Whenever [handle] returns, the only part of the engine that may
    have changed is the priority store: the configuration, the member
    map, the endpoint, the quit channel and [pbkStore] are as before. *)
Theorem handle_keeps_engine s msg w s' w' :
  handle s msg w = (Ok s', w') ->
  config s' = config s
  /\ memberMap s' = memberMap s
  /\ messageEndpoint s' = messageEndpoint s
  /\ quitFD s' = quitFD s
  /\ pbkStore s' = pbkStore s.
Proof.
  intros H. destruct (pb.PiggyBack_ msg) as [p|] eqn:Hpb.
  - destruct (isPing msg) eqn:Hping.
    + unfold handle in H. rewrite Hpb in H.
      rewrite (bind_ok _ _ _ _ _ (handlePbk_present s p w)) in H.
      unfold isPing in Hping.
      destruct (pb.Payload msg) as [[| |]|]; try discriminate.
      destruct (messageEndpoint s) as [ep|] eqn:Hep.
      * rewrite (pingHandler_replies s msg ep w Hep) in H.
        injection H as Hs _. subst s'. cbn. rewrite Hep. repeat split.
      * destruct (pingHandler_nil_endpoint s msg w Hep) as [w1 H1].
        rewrite H1 in H. discriminate.
    + rewrite (handle_not_ping s msg p w Hpb Hping) in H.
      injection H as Hs _. subst s'. repeat split.
  - rewrite (handle_nil s msg w Hpb) in H. discriminate.
Qed.

(** X7. On an engine that has its endpoint, [handle] sends exactly one
    message for a ping that carries a record and none for any other
    message. *)
Theorem handle_sends_once s msg ep w :
  messageEndpoint s = Some ep ->
  sends (snd (handle s msg w))
  = (sends w + if isPing msg && hasPiggyBack msg then 1 else 0)%nat.
Proof.
  intros Hep. unfold hasPiggyBack.
  destruct (pb.PiggyBack_ msg) as [p|] eqn:Hpb.
  - destruct (isPing msg) eqn:Hping; cbn [andb].
    + assert (Hpayload : pb.Payload msg = Some pb.Message_Ping).
      { unfold isPing in Hping.
        destruct (pb.Payload msg) as [[| |]|]; try discriminate; reflexivity. }
      rewrite (handle_ping_with_piggyback s msg ep p w Hep Hpayload Hpb).
      cbn [snd]. rewrite sends_said. cbn [filter isSend].
      rewrite filter_app, errorLog_sends_nothing. reflexivity.
    + rewrite (handle_not_ping s msg p w Hpb Hping). cbn. lia.
  - rewrite (handle_nil s msg w Hpb), andb_false_r. cbn. lia.
Qed.

(** X8. On an engine that has its endpoint, [pingHandler] never fails:
    it asks the priority store once, logs the error if there is one, and
    sends one message to the address of the ping. That message echoes
    the id of the ping, names the local address as its sender, is an
    [Ack] with an empty payload and carries the record of the store;
    the engine continues with the store that [Get] left. *)
Theorem pingHandler_reply_shape s msg ep w :
  messageEndpoint s = Some ep ->
  exists reply,
    pingHandler s msg w
    = (Ok (with_priorityPBStore s (snd (Get (priorityPBStore s)))),
       said w (EvGet
               :: errorLog (snd (fst (Get (priorityPBStore s))))
               ++ [EvSend (pb.Address msg) reply]))
    /\ pb.Id reply = pb.Id msg
    /\ pb.Address reply = localAddress s
    /\ pb.Payload reply = Some (pb.Message_Ack "")
    /\ pb.PiggyBack_ reply = Some (fst (fst (Get (priorityPBStore s)))).
Proof.
  intros Hep.
  exists (ackReply s msg (fst (fst (Get (priorityPBStore s))))).
  split; [apply (pingHandler_replies s msg ep w Hep)|]. repeat split.
Qed.

(** X9. The first ping answered by an engine that [New] has just built
    draws its record from the new priority store, and its reply names
    as sender the bind address and port of the configuration given to
    [New]. *)
Theorem New_then_ping cfg mec awareness w s w1 ep msg p :
  New cfg mec awareness w = (Ok s, w1) ->
  messageEndpoint s = Some ep ->
  pb.Payload msg = Some pb.Message_Ping ->
  pb.PiggyBack_ msg = Some p ->
  let fresh := Get (NewPriorityPBStore (MaxlocalCount cfg)) in
  handle s msg w1
  = (Ok (with_priorityPBStore s (snd fresh)),
     said w
       ([openTransport cfg; EvNewMessageEndpoint; EvGet]
        ++ errorLog (snd (fst fresh))
        ++ [EvSend (pb.Address msg)
              {| pb.Id := pb.Id msg;
                 pb.Address :=
                   (BindAddress cfg ++ ":"
                    ++ Go.string_of_int (BindPort cfg))%string;
                 pb.Payload := Some (pb.Message_Ack "");
                 pb.PiggyBack_ := Some (fst (fst fresh)) |}])).
Proof.
  intros HNew Hep Hping Hpb fresh.
  assert (Hinv : config s = cfg
                 /\ priorityPBStore s
                    = NewPriorityPBStore (MaxlocalCount cfg)
                 /\ w1 = said w [openTransport cfg; EvNewMessageEndpoint]).
  { destruct (Z_lt_le_dec (T cfg) (AckTimeOut cfg)) as [Hlt|Hge].
    - rewrite (New_rejects _ _ _ _ Hlt) in HNew. discriminate.
    - rewrite (New_runs_factory _ _ _ _ Hge) in HNew.
      destruct (NewPacketTransport _) as [transport [err|]];
        [discriminate|].
      destruct (NewMessageEndpoint mec transport awareness) as [e [err|]];
        [discriminate|].
      injection HNew as Hs Hw. subst s w1. repeat split. }
  destruct Hinv as (Hc & Hstore & Hw1).
  rewrite (handle_ping_with_piggyback s msg ep p w1 Hep Hping Hpb).
  unfold ackReply, localAddress. subst fresh. rewrite Hstore, Hc, Hw1.
  rewrite said_said. reflexivity.
Qed.

(** ** Rounds *)

Lemma probes_effects wake s members :
  forall w,
    range members (fun member => probe s member (wake member)) w
    = (Ok tt,
       {| trace := trace w ++ timersOf s members;
          orphans := (orphans w + orphansOf wake members)%nat |}).
Proof.
  induction members as [|m rest IH]; intros w.
  - cbn. unfold ret, timersOf, orphansOf. cbn.
    rewrite app_nil_r, Nat.add_0_r. now destruct w.
  - cbn [range]. unfold timersOf, orphansOf, isLive in *. cbn [filter].
    destruct (MemberStatus_eqb (Status m) Dead) eqn:E; cbn [negb].
    + assert (Hd : Status m = Dead) by (destruct (Status m); now try discriminate).
      rewrite (bind_ok _ _ _ _ _ (probe_skips_dead s m (wake m) w Hd)).
      apply IH.
    + assert (Hl : Status m <> Dead).
      { intros Hd. rewrite Hd in E. discriminate. }
      rewrite (bind_ok _ _ _ _ _ (probe_live s m (wake m) w Hl)).
      rewrite IH. cbn [trace orphans map filter].
      unfold timerWins at 2. f_equal. f_equal.
      * now rewrite <- app_assoc.
      * destruct (wake m); cbn [List.length]; lia.
Qed.

Lemma round_trace wake s w :
  round wake s w
  = (Ok (Continue, with_memberMap s (Reset (memberMap s))),
     {| trace := trace w
                 ++ EvGetMembers
                    :: timersOf s (GetMembers (memberMap s)) ++ [EvReset];
        orphans := (orphans w
                    + orphansOf wake (GetMembers (memberMap s)))%nat |}).
Proof.
  unfold round.
  rewrite (bind_ok _ _ _ _ _ (emit_said EvGetMembers w)).
  rewrite (bind_ok _ _ _ _ _ (probes_effects wake s _ _)).
  unfold bind, emit, ret, said. cbn. f_equal. f_equal.
  rewrite <- !app_assoc. reflexivity.
Qed.

(** X10. A round takes the snapshot, creates one timer of the probe
    period for every member of the snapshot that is not dead, in the
    order of the snapshot, then resets the member map; dead members are
    skipped, and each probe whose timer wins leaves one goroutine
    behind. The probes read the snapshot taken before the reset. *)
Theorem round_effects wake s w :
  round wake s w
  = (Ok (Continue, with_memberMap s (Reset (memberMap s))),
     {| trace := trace w
                 ++ EvGetMembers
                    :: timersOf s (GetMembers (memberMap s)) ++ [EvReset];
        orphans := (orphans w
                    + orphansOf wake (GetMembers (memberMap s)))%nat |}).
Proof. apply round_trace. Qed.

Lemma timersOf_detector s members :
  forallb isDetectorEvent (timersOf s members) = true.
Proof.
  unfold timersOf. induction (filter isLive members); cbn; auto.
Qed.

Lemma tick_effects t d w :
  exists d1 es n,
    tick t d w = (Ok d1, {| trace := trace w ++ es; orphans := n |})
    /\ forallb isDetectorEvent es = true
    /\ (quitFD (fd_swim d1) + received d1
        = quitFD (fd_swim d) + received d + if isShutDown t then 1 else 0)%nat
    /\ config (fd_swim d1) = config (fd_swim d)
    /\ priorityPBStore (fd_swim d1) = priorityPBStore (fd_swim d)
    /\ (fd_loop d = Spinning ->
        fd_loop d1 = Spinning
        /\ memberMap (fd_swim d1)
           = if isRound t then Reset (memberMap (fd_swim d))
             else memberMap (fd_swim d)).
Proof.
  assert (Hsame : forall v : World,
             v = {| trace := trace v ++ []; orphans := orphans v |}).
  { intros [tr o]. cbn. now rewrite app_nil_r. }
  destruct t as [wake| |]; cbn [tick isShutDown isRound].
  - destruct (fd_loop d) eqn:Hloop.
    + rewrite (bind_ok _ _ _ _ _ (round_trace wake (fd_swim d) w)).
      eexists; eexists; eexists. split; [reflexivity|].
      cbn. rewrite forallb_app, timersOf_detector. cbn.
      unfold received. cbn. repeat split; lia.
    + exists d, [], (orphans w). split; [unfold ret; now rewrite <- Hsame|].
      repeat split; try lia. discriminate. discriminate.
  - eexists; exists [], (orphans w).
    split; [unfold ret; now rewrite <- Hsame|].
    unfold received. cbn. repeat split; auto; lia.
  - unfold received.
    destruct (fd_caller d) eqn:Hc; [destruct (quitFD (fd_swim d)) eqn:Hq|];
      (eexists; exists [], (orphans w);
       split; [unfold ret; now rewrite <- Hsame|]);
      cbn; rewrite ?Hc, ?Hq; repeat split; auto; lia.
Qed.

Lemma run_effects schedule :
  forall d w,
  exists d' es n,
    run schedule d w = (Ok d', {| trace := trace w ++ es; orphans := n |})
    /\ forallb isDetectorEvent es = true
    /\ (quitFD (fd_swim d') + received d'
        = quitFD (fd_swim d) + received d + shutdowns schedule)%nat
    /\ config (fd_swim d') = config (fd_swim d)
    /\ priorityPBStore (fd_swim d') = priorityPBStore (fd_swim d)
    /\ (fd_loop d = Spinning ->
        fd_loop d' = Spinning
        /\ memberMap (fd_swim d')
           = Nat.iter (rounds schedule) Reset (memberMap (fd_swim d))).
Proof.
  induction schedule as [|t rest IH]; intros d w.
  - exists d, [], (orphans w). cbn. unfold ret, shutdowns, rounds. cbn.
    rewrite app_nil_r. destruct w. cbn. repeat split; auto; lia.
  - destruct (tick_effects t d w) as (d1 & es1 & n1 & H1 & He1 & Hq1 & Hc1 & Hp1 & Hl1).
    destruct (IH d1 {| trace := trace w ++ es1; orphans := n1 |})
      as (d2 & es2 & n2 & H2 & He2 & Hq2 & Hc2 & Hp2 & Hl2).
    exists d2, (es1 ++ es2), n2. cbn [run].
    rewrite (bind_ok _ _ _ _ _ H1), H2. cbn [trace].
    split; [now rewrite app_assoc|].
    split; [now rewrite forallb_app, He1, He2|].
    split.
    { unfold shutdowns in *. cbn [filter].
      destruct (isShutDown t); cbn [List.length]; lia. }
    split; [congruence|]. split; [congruence|].
    intros Hloop. destruct (Hl1 Hloop) as [Hs1 Hm1].
    destruct (Hl2 Hs1) as [Hs2 Hm2]. split; [assumption|].
    rewrite Hm2, Hm1. unfold rounds. cbn [filter].
    destruct (isRound t); cbn [List.length]; [|reflexivity].
    now rewrite Nat.iter_succ_r.
Qed.

(** X11. Whatever is scheduled, the failure detector never fails and
    calls nothing but [GetMembers], timers and [Reset]: it sends no
    ping and no indirect ping, marks no member and never touches the
    piggyback stores. *)
Theorem detector_only_snapshots_and_timers schedule d w :
  exists d' es n,
    run schedule d w = (Ok d', {| trace := trace w ++ es; orphans := n |})
    /\ forallb isDetectorEvent es = true.
Proof.
  destruct (run_effects schedule d w) as (d' & es & n & H & He & _).
  exists d', es, n. now split.
Qed.

(** X12. Signals on the quit channel are conserved: after any schedule,
    the senders still parked on [quitFD] plus the signal taken by the
    caller of [startFailureDetector] are those of before plus one per
    call of [ShutDown]. *)
Theorem quit_signals_conserved schedule d w :
  exists d' w',
    run schedule d w = (Ok d', w')
    /\ (quitFD (fd_swim d') + received d'
        = quitFD (fd_swim d) + received d + shutdowns schedule)%nat.
Proof.
  destruct (run_effects schedule d w) as (d' & es & n & H & _ & Hq & _).
  eexists; eexists. split; [exact H|exact Hq].
Qed.

(** X13. Without a call of [ShutDown] the caller of
    [startFailureDetector] stays blocked on the quit channel, however
    many rounds the goroutine makes. *)
Theorem caller_blocked_without_shutdown schedule s w :
  quitFD s = 0%nat ->
  shutdowns schedule = 0%nat ->
  exists d' w',
    run schedule (startFailureDetector s) w = (Ok d', w')
    /\ fd_caller d' = Blocked.
Proof.
  intros Hq Hs.
  destruct (run_effects schedule (startFailureDetector s) w)
    as (d' & es & n & H & _ & Hc & _).
  eexists; eexists. split; [exact H|].
  unfold received in Hc. cbn in Hc. rewrite Hq, Hs in Hc.
  destruct (fd_caller d'); [reflexivity|lia].
Qed.

(** X14. The caller takes one signal at most, so of all the calls of
    [ShutDown] made in a schedule all but one stay parked on the
    channel: a second [ShutDown] never returns. *)
Theorem second_shutdown_stays_parked schedule d w :
  exists d' w',
    run schedule d w = (Ok d', w')
    /\ (shutdowns schedule <= S (quitFD (fd_swim d')))%nat.
Proof.
  destruct (run_effects schedule d w) as (d' & es & n & H & _ & Hq & _).
  eexists; eexists. split; [exact H|].
  unfold received in Hq. destruct (fd_caller d'), (fd_caller d); lia.
Qed.

(** X15. While the goroutine runs, the member map is reset once per
    round and the detector changes nothing else of the engine: after a
    schedule the map is the initial one reset as many times as rounds
    were scheduled, and configuration and priority store are as before. *)
Theorem detector_resets_once_per_round schedule d w :
  fd_loop d = Spinning ->
  exists d' w',
    run schedule d w = (Ok d', w')
    /\ memberMap (fd_swim d')
       = Nat.iter (rounds schedule) Reset (memberMap (fd_swim d))
    /\ config (fd_swim d') = config (fd_swim d)
    /\ priorityPBStore (fd_swim d') = priorityPBStore (fd_swim d).
Proof.
  intros Hloop.
  destruct (run_effects schedule d w)
    as (d' & es & n & H & _ & _ & Hc & Hp & Hl).
  destruct (Hl Hloop) as [_ Hm].
  eexists; eexists. split; [exact H|]. now repeat split.
Qed.

(** ** The period of a probe *)

Lemma wrap64_small z : - 2 ^ 63 <= z < 2 ^ 63 -> Go.wrap64 z = z.
Proof.
  intros H. unfold Go.wrap64.
  change (2 ^ 64) with (2 * 2 ^ 63). rewrite Z.mod_small; lia.
Qed.

Lemma wrap64_high z :
  2 ^ 63 <= z < 2 ^ 64 -> Go.wrap64 z = z - 2 ^ 64.
Proof.
  intros H. unfold Go.wrap64.
  replace (z + 2 ^ 63) with (z - 2 ^ 63 + 1 * 2 ^ 64)
    by (change (2 ^ 64) with (2 * 2 ^ 63); lia).
  rewrite Z.mod_add by (change (2 ^ 64) with 18446744073709551616; lia).
  change (2 ^ 64) with (2 * 2 ^ 63) in *. rewrite Z.mod_small; lia.
Qed.

Lemma probePeriod_fits s :
  - maxPeriod <= T (config s) <= maxPeriod ->
  probePeriod s = 1000000 * T (config s).
Proof.
  intros H. unfold probePeriod, maxPeriod in *. apply wrap64_small.
  change (2 ^ 63) with 9223372036854775808. lia.
Qed.

(** X16. For a period [T] of at most 9223372036854 milliseconds in
    absolute value, the timer of a probe is set to exactly [T]
    milliseconds, counted in nanoseconds. *)
Theorem probePeriod_exact s :
  - maxPeriod <= T (config s) <= maxPeriod ->
  probePeriod s = 1000000 * T (config s).
Proof. apply probePeriod_fits. Qed.

(** X17. A period [T] just above 9223372036854 milliseconds overflows
    the duration: up to twice that bound the timer is set to a negative
    duration, so it is ready at once and wins against the goroutine. *)
Theorem probePeriod_overflows s :
  maxPeriod < T (config s) <= 2 * maxPeriod ->
  probePeriod s = 1000000 * T (config s) - 2 ^ 64
  /\ probePeriod s < 0
  /\ firstReady s = TimerFirst.
Proof.
  intros H. unfold maxPeriod in H.
  assert (Hp : probePeriod s = 1000000 * T (config s) - 2 ^ 64).
  { unfold probePeriod. apply wrap64_high.
    change (2 ^ 63) with 9223372036854775808.
    change (2 ^ 64) with 18446744073709551616. lia. }
  assert (Hneg : probePeriod s < 0).
  { rewrite Hp. change (2 ^ 64) with 18446744073709551616. lia. }
  repeat split; [assumption|assumption|].
  unfold firstReady, pingDelay.
  destruct (probePeriod s <? 1000000000) eqn:E; [reflexivity|].
  apply Z.ltb_ge in E. lia.
Qed.

Lemma firstReady_threshold s :
  - maxPeriod <= T (config s) <= maxPeriod ->
  (firstReady s = TimerFirst <-> T (config s) < 1000).
Proof.
  intros H. unfold firstReady, pingDelay.
  rewrite (probePeriod_fits s H).
  destruct (1000000 * T (config s) <? 1000000000) eqn:E.
  - apply Z.ltb_lt in E. split; [lia|reflexivity].
  - apply Z.ltb_ge in E. split; [discriminate|lia].
Qed.

(** X18. With exact clocks and a period that fits the duration, the
    timer of a probe is ready before the goroutine exactly when [T] is
    below 1000 milliseconds. *)
Theorem timer_first_iff_short_period s :
  - maxPeriod <= T (config s) <= maxPeriod ->
  (firstReady s = TimerFirst <-> T (config s) < 1000).
Proof. apply firstReady_threshold. Qed.

(** X19. With exact clocks and a period below one second, the probe of
    a member that is not dead returns on its timer and closes [end]
    while its goroutine is asleep; when the goroutine wakes up, its
    send on the closed channel panics. *)
Theorem short_period_probe_panics_later s member w :
  0 <= T (config s) < 1000 ->
  Status member <> Dead ->
  exists w',
    probe s member (firstReady s) w = (Ok tt, w')
    /\ orphanWakes w' = (Panic "send on closed channel", w').
Proof.
  intros HT Hlive.
  assert (Hfirst : firstReady s = TimerFirst).
  { apply firstReady_threshold; unfold maxPeriod; lia. }
  rewrite Hfirst. eexists. split; [apply (probe_live _ _ _ _ Hlive)|].
  reflexivity.
Qed.

(** X20. With exact clocks and a period of one second or more (that
    fits the duration), a probe ends on [end]: it leaves no goroutine
    behind, whatever the status of the member. *)
Theorem long_period_probe_leaves_nothing s member w :
  1000 <= T (config s) <= maxPeriod ->
  exists w',
    probe s member (firstReady s) w = (Ok tt, w')
    /\ orphans w' = orphans w.
Proof.
  intros HT.
  assert (Hfirst : firstReady s = EndFirst).
  { destruct (firstReady s) eqn:E; [reflexivity|].
    apply firstReady_threshold in E; unfold maxPeriod in *; lia. }
  rewrite Hfirst.
  destruct (MemberStatus_eqb (Status member) Dead) eqn:E.
  - exists w. unfold probe. now rewrite E.
  - assert (Hlive : Status member <> Dead).
    { intros Hd. rewrite Hd in E. discriminate. }
    eexists. split; [apply (probe_live _ _ _ _ Hlive)|]. reflexivity.
Qed.

(** ** The local address *)

Lemma string_of_int_surrogate p :
  isSurrogate p = true -> Go.string_of_int p = Go.bytes [0xEF; 0xBF; 0xBD].
Proof.
  intros H. unfold Go.string_of_int. unfold isSurrogate in H. rewrite H.
  rewrite andb_false_r. reflexivity.
Qed.

(** X21. Two engines with the same bind address whose ports both lie
    from 55296 to 57343 (the surrogate code points) have the same
    local address: the port is replaced by U+FFFD. *)
Theorem localAddress_collides_on_surrogates s1 s2 :
  BindAddress (config s1) = BindAddress (config s2) ->
  55296 <= BindPort (config s1) <= 57343 ->
  55296 <= BindPort (config s2) <= 57343 ->
  localAddress s1 = localAddress s2
  /\ localAddress s1
     = (BindAddress (config s1) ++ ":" ++ Go.bytes [0xEF; 0xBF; 0xBD])%string.
Proof.
  intros Ha H1 H2. unfold localAddress.
  assert (Hs : forall p, 55296 <= p <= 57343 -> isSurrogate p = true).
  { intros p Hp. unfold isSurrogate, Go.surrogateMin, Go.surrogateMax.
    apply andb_true_iff. split; apply Z.leb_le; lia. }
  rewrite (string_of_int_surrogate _ (Hs _ H1)).
  rewrite (string_of_int_surrogate _ (Hs _ H2)).
  rewrite Ha. split; reflexivity.
Qed.

Lemma decodes_on_ports : holds_on 16 0 decodes = true.
Proof. vm_compute. reflexivity. Qed.

Lemma decoderune_string_of_int p :
  0 <= p <= 65535 -> isSurrogate p = false ->
  decoderune (Go.string_of_int p) = p.
Proof.
  intros Hp Hs.
  assert (H : decodes p = true).
  { apply (holds_on_sound 16 0 decodes decodes_on_ports).
    change (2 ^ Z.of_nat 16) with 65536. lia. }
  unfold decodes in H. rewrite Hs in H. cbn in H. now apply Z.eqb_eq.
Qed.

(** X22. Outside the surrogate range the port can be read back from the
    local address: two engines with the same bind address and ports
    from 0 to 65535, neither from 55296 to 57343, that have the same
    local address have the same port. *)
Theorem localAddress_tells_ports_apart s1 s2 :
  BindAddress (config s1) = BindAddress (config s2) ->
  0 <= BindPort (config s1) <= 65535 ->
  0 <= BindPort (config s2) <= 65535 ->
  isSurrogate (BindPort (config s1)) = false ->
  isSurrogate (BindPort (config s2)) = false ->
  localAddress s1 = localAddress s2 ->
  BindPort (config s1) = BindPort (config s2).
Proof.
  intros Ha H1 H2 Hs1 Hs2 Heq. unfold localAddress in Heq. rewrite Ha in Heq.
  apply append_cancel in Heq. apply append_cancel in Heq.
  rewrite <- (decoderune_string_of_int _ H1 Hs1).
  rewrite <- (decoderune_string_of_int _ H2 Hs2).
  now rewrite Heq.
Qed.

End Further.

(** * Further properties at concrete inputs *)

Module FurtherConcrete.

Import Reference Scenario.

Lemma New_builds_witness :
  AckTimeOut (cfg 500 100) <= T (cfg 500 100)
  /\ NewPacketTransport (packetTransportConfigOf (cfg 500 100))
     = (Some tt, None)
  /\ NewMessageEndpoint tt (Some tt) None = (Some tt, None)
  /\ New (cfg 500 100) tt None genesis
     = (Ok {| config := cfg 500 100;
              memberMap := NewMemberMap;
              messageEndpoint := Some tt;
              priorityPBStore := NewPriorityPBStore (MaxlocalCount (cfg 500 100));
              quitFD := 0%nat;
              pbkStore := None |},
        said genesis [openTransport (cfg 500 100); EvNewMessageEndpoint]).
Proof.
  split; [cbn; lia|]. split; [reflexivity|]. split; [reflexivity|].
  apply (New_builds (C := collaborators) (cfg 500 100) tt None (Some tt)
           (Some tt) genesis); [cbn; lia|reflexivity|reflexivity].
Defined.

Lemma New_transport_error_witness :
  AckTimeOut (cfg 500 100) <= T (cfg 500 100)
  /\ NewPacketTransport
       (Collaborators := constructing (None, Some addressInUse) (Some tt, None))
       (packetTransportConfigOf (cfg 500 100))
     = (None, Some addressInUse)
  /\ New (C := constructing (None, Some addressInUse) (Some tt, None))
       (cfg 500 100) tt None genesis
     = (Panic addressInUse, said genesis [openTransport (cfg 500 100)]).
Proof.
  split; [cbn; lia|]. split; [reflexivity|].
  apply (New_transport_error
           (C := constructing (None, Some addressInUse) (Some tt, None))
           (cfg 500 100) tt None None addressInUse genesis);
    [cbn; lia|reflexivity].
Defined.

Lemma New_endpoint_error_witness :
  AckTimeOut (cfg 500 100) <= T (cfg 500 100)
  /\ NewPacketTransport
       (Collaborators := constructing (Some tt, None) (None, Some addressInUse))
       (packetTransportConfigOf (cfg 500 100))
     = (Some tt, None)
  /\ NewMessageEndpoint
       (Collaborators := constructing (Some tt, None) (None, Some addressInUse))
       tt (Some tt) None
     = (None, Some addressInUse)
  /\ New (C := constructing (Some tt, None) (None, Some addressInUse))
       (cfg 500 100) tt None genesis
     = (Panic addressInUse,
        said genesis [openTransport (cfg 500 100); EvNewMessageEndpoint]).
Proof.
  split; [cbn; lia|]. split; [reflexivity|]. split; [reflexivity|].
  apply (New_endpoint_error
           (C := constructing (Some tt, None) (None, Some addressInUse))
           (cfg 500 100) tt None (Some tt) None addressInUse genesis);
    [cbn; lia|reflexivity|reflexivity].
Defined.

Lemma handle_drops_other_payloads_witness :
  pb.PiggyBack_ ack = Some emptyRecord
  /\ isPing ack = false
  /\ handle (node 500 100 []) ack genesis = (Ok (node 500 100 []), genesis).
Proof.
  split; [reflexivity|]. split; [reflexivity|].
  apply (handle_drops_other_payloads (node 500 100 []) ack emptyRecord
           genesis); reflexivity.
Defined.

Lemma handle_keeps_engine_witness :
  handle (node 500 100 []) (ping (Some emptyRecord)) genesis
  = (Ok (node 500 100 []),
     said genesis
       [EvGet; EvLogError ErrStoreEmpty;
        EvSend "10.0.0.2:7946"
          (ackReply (node 500 100 []) (ping (Some emptyRecord))
             emptyRecord)])
  /\ (config (node 500 100 []) = config (node 500 100 [])
      /\ memberMap (node 500 100 []) = memberMap (node 500 100 [])
      /\ messageEndpoint (node 500 100 []) = messageEndpoint (node 500 100 [])
      /\ quitFD (node 500 100 []) = quitFD (node 500 100 [])
      /\ pbkStore (node 500 100 []) = pbkStore (node 500 100 [])).
Proof.
  split; [reflexivity|].
  apply (handle_keeps_engine (node 500 100 []) (ping (Some emptyRecord))
           genesis (node 500 100 [])
           (said genesis
              [EvGet; EvLogError ErrStoreEmpty;
               EvSend "10.0.0.2:7946"
                 (ackReply (node 500 100 []) (ping (Some emptyRecord))
                    emptyRecord)])).
  reflexivity.
Defined.

Lemma handle_sends_once_witness :
  messageEndpoint (node 500 100 []) = Some tt
  /\ sends (snd (handle (node 500 100 []) (ping (Some emptyRecord)) genesis))
     = (sends genesis
        + if isPing (ping (Some emptyRecord))
             && hasPiggyBack (ping (Some emptyRecord))
          then 1 else 0)%nat.
Proof.
  split; [reflexivity|].
  apply (handle_sends_once (node 500 100 []) (ping (Some emptyRecord)) tt
           genesis).
  reflexivity.
Defined.

Lemma pingHandler_reply_shape_witness :
  messageEndpoint (node 500 100 []) = Some tt
  /\ exists reply,
       pingHandler (node 500 100 []) (ping None) genesis
       = (Ok (with_priorityPBStore (node 500 100 [])
                (snd (Get (priorityPBStore (node 500 100 []))))),
          said genesis
            (EvGet
             :: errorLog (snd (fst (Get (priorityPBStore (node 500 100 [])))))
             ++ [EvSend (pb.Address (ping None)) reply]))
       /\ pb.Id reply = pb.Id (ping None)
       /\ pb.Address reply = localAddress (node 500 100 [])
       /\ pb.Payload reply = Some (pb.Message_Ack "")
       /\ pb.PiggyBack_ reply
          = Some (fst (fst (Get (priorityPBStore (node 500 100 []))))).
Proof.
  split; [reflexivity|].
  apply (pingHandler_reply_shape (node 500 100 []) (ping None) tt genesis).
  reflexivity.
Defined.

Lemma New_then_ping_witness :
  New (cfg 500 100) tt None genesis
  = (Ok (node 500 100 []),
     said genesis [openTransport (cfg 500 100); EvNewMessageEndpoint])
  /\ messageEndpoint (node 500 100 []) = Some tt
  /\ pb.Payload (ping (Some emptyRecord)) = Some pb.Message_Ping
  /\ pb.PiggyBack_ (ping (Some emptyRecord)) = Some emptyRecord
  /\ (let fresh := Get (NewPriorityPBStore (MaxlocalCount (cfg 500 100))) in
      handle (node 500 100 []) (ping (Some emptyRecord))
        (said genesis [openTransport (cfg 500 100); EvNewMessageEndpoint])
      = (Ok (with_priorityPBStore (node 500 100 []) (snd fresh)),
         said genesis
           ([openTransport (cfg 500 100); EvNewMessageEndpoint; EvGet]
            ++ errorLog (snd (fst fresh))
            ++ [EvSend (pb.Address (ping (Some emptyRecord)))
                  {| pb.Id := pb.Id (ping (Some emptyRecord));
                     pb.Address :=
                       (BindAddress (cfg 500 100) ++ ":"
                        ++ Go.string_of_int (BindPort (cfg 500 100)))%string;
                     pb.Payload := Some (pb.Message_Ack "");
                     pb.PiggyBack_ := Some (fst (fst fresh)) |}]))).
Proof.
  split; [reflexivity|]. split; [reflexivity|]. split; [reflexivity|].
  split; [reflexivity|].
  apply (New_then_ping (C := collaborators) (cfg 500 100) tt None genesis
           (node 500 100 [])
           (said genesis [openTransport (cfg 500 100); EvNewMessageEndpoint])
           tt (ping (Some emptyRecord)) emptyRecord); reflexivity.
Defined.

Lemma caller_blocked_without_shutdown_witness :
  quitFD (node 2000 100 [peer Alive]) = 0%nat
  /\ shutdowns threeRounds = 0%nat
  /\ exists d' w',
       run threeRounds (startFailureDetector (node 2000 100 [peer Alive]))
         genesis
       = (Ok d', w')
       /\ fd_caller d' = Blocked.
Proof.
  split; [reflexivity|]. split; [reflexivity|].
  apply (caller_blocked_without_shutdown threeRounds
           (node 2000 100 [peer Alive]) genesis); reflexivity.
Defined.

Lemma detector_resets_once_per_round_witness :
  fd_loop (startFailureDetector (node 2000 100 [peer Alive])) = Spinning
  /\ exists d' w',
       run stopAfterOneRound
         (startFailureDetector (node 2000 100 [peer Alive])) genesis
       = (Ok d', w')
       /\ memberMap (fd_swim d')
          = Nat.iter (rounds stopAfterOneRound) Reset
              (memberMap
                 (fd_swim (startFailureDetector (node 2000 100 [peer Alive]))))
       /\ config (fd_swim d')
          = config (fd_swim (startFailureDetector (node 2000 100 [peer Alive])))
       /\ priorityPBStore (fd_swim d')
          = priorityPBStore
              (fd_swim (startFailureDetector (node 2000 100 [peer Alive]))).
Proof.
  split; [reflexivity|].
  apply (detector_resets_once_per_round stopAfterOneRound
           (startFailureDetector (node 2000 100 [peer Alive])) genesis).
  reflexivity.
Defined.

Lemma probePeriod_exact_witness :
  - maxPeriod <= T (config (node 500 100 [])) <= maxPeriod
  /\ probePeriod (node 500 100 []) = 1000000 * T (config (node 500 100 [])).
Proof.
  split; [unfold maxPeriod; cbn; lia|].
  apply (probePeriod_exact (node 500 100 [])). unfold maxPeriod; cbn; lia.
Defined.

Lemma probePeriod_overflows_witness :
  maxPeriod < T (config (node 9223372036855 100 [])) <= 2 * maxPeriod
  /\ (probePeriod (node 9223372036855 100 [])
      = 1000000 * T (config (node 9223372036855 100 [])) - 2 ^ 64
      /\ probePeriod (node 9223372036855 100 []) < 0
      /\ firstReady (node 9223372036855 100 []) = TimerFirst).
Proof.
  split; [unfold maxPeriod; cbn; lia|].
  apply (probePeriod_overflows (node 9223372036855 100 [])).
  unfold maxPeriod; cbn; lia.
Defined.

Lemma timer_first_iff_short_period_witness :
  - maxPeriod <= T (config (node 500 100 [])) <= maxPeriod
  /\ (firstReady (node 500 100 []) = TimerFirst
      <-> T (config (node 500 100 [])) < 1000).
Proof.
  split; [unfold maxPeriod; cbn; lia|].
  apply (timer_first_iff_short_period (node 500 100 [])).
  unfold maxPeriod; cbn; lia.
Defined.

Lemma short_period_probe_panics_later_witness :
  0 <= T (config (node 500 100 [peer Alive])) < 1000
  /\ Status (peer Alive) <> Dead
  /\ exists w',
       probe (node 500 100 [peer Alive]) (peer Alive)
         (firstReady (node 500 100 [peer Alive])) genesis
       = (Ok tt, w')
       /\ orphanWakes w' = (Panic "send on closed channel", w').
Proof.
  split; [cbn; lia|]. split; [discriminate|].
  apply (short_period_probe_panics_later (node 500 100 [peer Alive])
           (peer Alive) genesis); [cbn; lia|discriminate].
Defined.

Lemma long_period_probe_leaves_nothing_witness :
  1000 <= T (config (node 2000 100 [peer Alive])) <= maxPeriod
  /\ exists w',
       probe (node 2000 100 [peer Alive]) (peer Alive)
         (firstReady (node 2000 100 [peer Alive])) genesis
       = (Ok tt, w')
       /\ orphans w' = orphans genesis.
Proof.
  split; [unfold maxPeriod; cbn; lia|].
  apply (long_period_probe_leaves_nothing (node 2000 100 [peer Alive])
           (peer Alive) genesis).
  unfold maxPeriod; cbn; lia.
Defined.

Lemma localAddress_collides_on_surrogates_witness :
  BindAddress (config (nodeAt 55296)) = BindAddress (config (nodeAt 57343))
  /\ 55296 <= BindPort (config (nodeAt 55296)) <= 57343
  /\ 55296 <= BindPort (config (nodeAt 57343)) <= 57343
  /\ (localAddress (nodeAt 55296) = localAddress (nodeAt 57343)
      /\ localAddress (nodeAt 55296)
         = (BindAddress (config (nodeAt 55296)) ++ ":"
            ++ Go.bytes [0xEF; 0xBF; 0xBD])%string).
Proof.
  split; [reflexivity|]. split; [cbn; lia|]. split; [cbn; lia|].
  apply (localAddress_collides_on_surrogates (nodeAt 55296) (nodeAt 57343));
    [reflexivity|cbn; lia|cbn; lia].
Defined.

Lemma localAddress_tells_ports_apart_witness :
  BindAddress (config (nodeAt 8080)) = BindAddress (config (nodeAt 8080))
  /\ 0 <= BindPort (config (nodeAt 8080)) <= 65535
  /\ 0 <= BindPort (config (nodeAt 8080)) <= 65535
  /\ isSurrogate (BindPort (config (nodeAt 8080))) = false
  /\ isSurrogate (BindPort (config (nodeAt 8080))) = false
  /\ localAddress (nodeAt 8080) = localAddress (nodeAt 8080)
  /\ BindPort (config (nodeAt 8080)) = BindPort (config (nodeAt 8080)).
Proof.
  split; [reflexivity|]. split; [cbn; lia|]. split; [cbn; lia|].
  split; [reflexivity|]. split; [reflexivity|]. split; [reflexivity|].
  apply (localAddress_tells_ports_apart (nodeAt 8080) (nodeAt 8080));
    [reflexivity|cbn; lia|cbn; lia|reflexivity|reflexivity|reflexivity].
Defined.

End FurtherConcrete.
